(** * SyncThru printer sensors

    A shallow embedding of [homeassistant/components/syncthru/sensor.py]:
    the default keys and monitored conditions, the table of human readable
    device states, the five sensor classes with their constructors and
    properties, and the set-up routine that builds the list of entities from
    the printer object.  The property
    [device_info] hands the printer to [device_identifiers], a helper of the
    package that this file only imports; the helper is a parameter of the
    model. *)

From stdpp Require Import base option list strings pretty gmap.

Open Scope string_scope.
Open Scope Z_scope.

(** ** Python values *)

(** The members of [pysyncthru.SyncthruState] that the source refers to. *)
Inductive SyncthruState :=
  | INVALID | OFFLINE | NORMAL | UNKNOWN | WARNING | TESTING | ERROR.

(** The Python objects that flow through the sensors: [None], integers,
    strings and members of the state enumeration.  Equality of values is
    Python's [==] on these objects; a member of the enumeration is equal
    only to itself. *)
Inductive value :=
  | VNone
  | VInt (n : Z)
  | VStr (s : string)
  | VState (st : SyncthruState).

#[global] Instance SyncthruState_eq_dec : EqDecision SyncthruState.
Proof. solve_decision. Defined.

#[global] Instance value_eq_dec : EqDecision value.
Proof. solve_decision. Defined.

(** The name of a member of the enumeration. *)
Definition state_name (st : SyncthruState) : string :=
  match st with
  | INVALID => "INVALID" | OFFLINE => "OFFLINE" | NORMAL => "NORMAL"
  | UNKNOWN => "UNKNOWN" | WARNING => "WARNING" | TESTING => "TESTING"
  | ERROR => "ERROR"
  end.

(** [format v] is the text a replacement field [{v}] of an f-string yields. *)
Definition format (v : value) : string :=
  match v with
  | VNone => "None"
  | VInt n => pretty n
  | VStr s => s
  | VState st => "SyncthruState." +:+ state_name st
  end.

(** Exceptions the modelled code can raise. *)
Inductive exn :=
  | KeyError (key : value)
  | AttributeError (attr : string).

Inductive result (A : Type) :=
  | Ok (a : A)
  | Raise (e : exn).
Arguments Ok {A} a.
Arguments Raise {A} e.

#[global] Instance result_bind : MBind result := λ A B k r,
  match r with
  | Ok a => k a
  | Raise e => Raise e
  end.

(** ** Dictionaries *)

(** A sub-status entry ([{"remaining": 42, ...}]): keys are strings, the
    order of the keys is never observed. *)
Abbreviation entry := (gmap string value).

(** [e.get(k)]: the value at [k], [None] without it. *)
Definition entry_get (e : entry) (k : string) : value :=
  default VNone (e !! k).

(** A status dictionary maps sub-status keys (colours, tray numbers) to
    entries.  The set-up routine iterates over it, so the insertion order
    is kept: the dictionary is the list of its items in that order. *)
Definition status_dict := list (value * entry).

(** Iterating a dictionary yields its keys. *)
Definition dict_keys {V} (d : list (value * V)) : list value := d.*1.

Fixpoint dict_lookup {V} (d : list (value * V)) (k : value) : option V :=
  match d with
  | [] => None
  | (k', v) :: d' => if decide (k' = k) then Some v else dict_lookup d' k
  end.

(** [d.get(k, dflt)] *)
Definition dict_get {V} (d : list (value * V)) (k : value) (dflt : V) : V :=
  default dflt (dict_lookup d k).

(** [d[k]] *)
Definition dict_getitem {V} (d : list (value * V)) (k : value) : result V :=
  match dict_lookup d k with
  | Some v => Ok v
  | None => Raise (KeyError k)
  end.

(** ** The printer object *)

(** The [pysyncthru.SyncThru] object held by the coordinator, seen through
    the methods the sensors call.  The object is refreshed in place between
    reads, so every property below takes the printer as it is at the time of
    the read.  The three filtered status methods take the keyword
    [filter_supported]: [Some b] when the call passes it, [None] when the
    call leaves it out. *)
Record SyncThru := {
  device_status : value;
  device_status_details : string;
  serial_number : option string;
  toner_status : option bool → status_dict;
  drum_status : option bool → status_dict;
  input_tray_status : option bool → status_dict;
  output_tray_status : status_dict;
}.

(** ** Constants *)

(** Modelled from the spec: [homeassistant.const.PERCENTAGE] is imported by
    the source and not defined in it; the spec calls it the percentage unit
    of the toner and drum sensors. *)
Definition PERCENTAGE : string := "%".

Definition SYNCTHRU_STATE_HUMAN : list (value * string) :=
  [ (VState INVALID, "invalid");
    (VState OFFLINE, "unreachable");
    (VState NORMAL, "normal");
    (VState UNKNOWN, "unknown");
    (VState WARNING, "warning");
    (VState TESTING, "testing");
    (VState ERROR, "error") ].

(** ** The sensor classes *)

Inductive SensorClass :=
  | SyncThruMainSensor
  | SyncThruTonerSensor
  | SyncThruDrumSensor
  | SyncThruInputTraySensor
  | SyncThruOutputTraySensor.

#[global] Instance SensorClass_eq_dec : EqDecision SensorClass.
Proof. solve_decision. Defined.

(** The instance attributes of a sensor.  [_color] and [_number] exist only
    on the classes whose constructor sets them.  The reference to the printer
    ([self.syncthru]) is the shared object above and is passed to each
    property instead of being stored. *)
Record Sensor := {
  class : SensorClass;
  _name : string;
  _icon : string;
  _unit_of_measurement : option string;
  _id_suffix : string;
  _color : option value;
  _number : option value;
}.

#[global] Instance Sensor_eq_dec : EqDecision Sensor.
Proof. solve_decision. Defined.

(** [SyncThruSensor.__init__] *)
Definition SyncThruSensor__init__ (cls : SensorClass) (name : string) : Sensor :=
  {| class := cls;
     _name := name;
     _icon := "mdi:printer";
     _unit_of_measurement := None;
     _id_suffix := "";
     _color := None;
     _number := None |}.

Definition set_name (n : string) (s : Sensor) : Sensor :=
  {| class := class s; _name := n; _icon := _icon s;
     _unit_of_measurement := _unit_of_measurement s;
     _id_suffix := _id_suffix s; _color := _color s; _number := _number s |}.

Definition set_unit_of_measurement (u : option string) (s : Sensor) : Sensor :=
  {| class := class s; _name := _name s; _icon := _icon s;
     _unit_of_measurement := u;
     _id_suffix := _id_suffix s; _color := _color s; _number := _number s |}.

Definition set_id_suffix (x : string) (s : Sensor) : Sensor :=
  {| class := class s; _name := _name s; _icon := _icon s;
     _unit_of_measurement := _unit_of_measurement s;
     _id_suffix := x; _color := _color s; _number := _number s |}.

Definition set_color (c : value) (s : Sensor) : Sensor :=
  {| class := class s; _name := _name s; _icon := _icon s;
     _unit_of_measurement := _unit_of_measurement s;
     _id_suffix := _id_suffix s; _color := Some c; _number := _number s |}.

Definition set_number (n : value) (s : Sensor) : Sensor :=
  {| class := class s; _name := _name s; _icon := _icon s;
     _unit_of_measurement := _unit_of_measurement s;
     _id_suffix := _id_suffix s; _color := _color s; _number := Some n |}.

Definition SyncThruMainSensor__init__ (name : string) : Sensor :=
  let self := SyncThruSensor__init__ SyncThruMainSensor name in
  set_id_suffix "_main" self.

Definition SyncThruTonerSensor__init__ (name : string) (color : value) : Sensor :=
  let self := SyncThruSensor__init__ SyncThruTonerSensor name in
  let self := set_name (name +:+ " Toner " +:+ format color) self in
  let self := set_color color self in
  let self := set_unit_of_measurement (Some PERCENTAGE) self in
  set_id_suffix ("_toner_" +:+ format color) self.

Definition SyncThruDrumSensor__init__ (name : string) (color : value) : Sensor :=
  let self := SyncThruSensor__init__ SyncThruDrumSensor name in
  let self := set_name (name +:+ " Drum " +:+ format color) self in
  let self := set_color color self in
  let self := set_unit_of_measurement (Some PERCENTAGE) self in
  set_id_suffix ("_drum_" +:+ format color) self.

Definition SyncThruInputTraySensor__init__ (name : string) (number : value) : Sensor :=
  let self := SyncThruSensor__init__ SyncThruInputTraySensor name in
  let self := set_name (name +:+ " Tray " +:+ format number) self in
  let self := set_number number self in
  set_id_suffix ("_tray_" +:+ format number) self.

Definition SyncThruOutputTraySensor__init__ (name : string) (number : value) : Sensor :=
  let self := SyncThruSensor__init__ SyncThruOutputTraySensor name in
  let self := set_name (name +:+ " Output Tray " +:+ format number) self in
  let self := set_number number self in
  set_id_suffix ("_output_tray_" +:+ format number) self.

(** ** Properties *)

(** Truth value of the optional serial number: [None] and the empty string
    are false. *)
Definition truthy (serial : option string) : bool :=
  match serial with
  | None => false
  | Some s => bool_decide (s ≠ "")
  end.

(** The text of [{serial}] in an f-string. *)
Definition format_serial (serial : option string) : string :=
  match serial with
  | None => "None"
  | Some s => s
  end.

(** [SyncThruSensor.unique_id] *)
Definition unique_id (self : Sensor) (syncthru : SyncThru) : option string :=
  let serial := serial_number syncthru in
  if truthy serial
  then Some (format_serial serial +:+ _id_suffix self)
  else None.

(** [SyncThruSensor.name] *)
Definition name (self : Sensor) : string := _name self.

(** [SyncThruSensor.icon] *)
Definition icon (self : Sensor) : string := _icon self.

(** [SyncThruSensor.native_unit_of_measurement] *)
Definition native_unit_of_measurement (self : Sensor) : option string :=
  _unit_of_measurement self.

(** [DeviceInfo(identifiers=identifiers)] *)
Record DeviceInfo (Ids : Type) := { identifiers : Ids }.
Arguments Build_DeviceInfo {Ids} _.
Arguments identifiers {Ids} _.

(** [SyncThruSensor.device_info].  The source imports [device_identifiers]
    from the package and does not define it: the helper, with the type [Ids]
    of what it returns, is a parameter. *)
Definition device_info {Ids : Type} (device_identifiers : SyncThru → option Ids)
    (self : Sensor) (syncthru : SyncThru) : option (DeviceInfo Ids) :=
  match device_identifiers syncthru with
  | None => None
  | Some identifiers => Some (Build_DeviceInfo identifiers)
  end.

(** Reading an instance attribute that the constructor may not have set. *)
Definition getattr (attr : string) (field : option value) : result value :=
  match field with
  | Some v => Ok v
  | None => Raise (AttributeError attr)
  end.

(** [extra_state_attributes] of each class. *)
Definition extra_state_attributes (self : Sensor) (syncthru : SyncThru)
  : result entry :=
  match class self with
  | SyncThruMainSensor =>
      Ok {[ "display_text" := VStr (device_status_details syncthru) ]}
  | SyncThruTonerSensor =>
      color ← getattr "_color" (_color self);
      Ok (dict_get (toner_status syncthru None) color ∅)
  | SyncThruDrumSensor =>
      color ← getattr "_color" (_color self);
      Ok (dict_get (drum_status syncthru None) color ∅)
  | SyncThruInputTraySensor =>
      number ← getattr "_number" (_number self);
      Ok (dict_get (input_tray_status syncthru None) number ∅)
  | SyncThruOutputTraySensor =>
      number ← getattr "_number" (_number self);
      Ok (dict_get (output_tray_status syncthru) number ∅)
  end.

(** The substitution at the end of both tray [native_value] properties. *)
Definition ready_if_empty (tray_state : value) : value :=
  if decide (tray_state = VStr "") then VStr "Ready" else tray_state.

(** [native_value] of each class. *)
Definition native_value (self : Sensor) (syncthru : SyncThru) : result value :=
  match class self with
  | SyncThruMainSensor =>
      label ← dict_getitem SYNCTHRU_STATE_HUMAN (device_status syncthru);
      Ok (VStr label)
  | SyncThruTonerSensor =>
      color ← getattr "_color" (_color self);
      Ok (entry_get (dict_get (toner_status syncthru None) color ∅) "remaining")
  | SyncThruDrumSensor =>
      color ← getattr "_color" (_color self);
      Ok (entry_get (dict_get (drum_status syncthru None) color ∅) "remaining")
  | SyncThruInputTraySensor =>
      number ← getattr "_number" (_number self);
      let tray_state :=
        entry_get (dict_get (input_tray_status syncthru None) number ∅) "newError" in
      Ok (ready_if_empty tray_state)
  | SyncThruOutputTraySensor =>
      number ← getattr "_number" (_number self);
      let tray_state :=
        entry_get (dict_get (output_tray_status syncthru) number ∅) "status" in
      Ok (ready_if_empty tray_state)
  end.

(** Modelled from the spec: [Entity.entity_registry_enabled_default], the
    property the four classes other than the main sensor inherit, is defined
    by the entity base class and not in the source; the spec states that all
    sensors but the main one are enabled by default. *)
Definition Entity_entity_registry_enabled_default : bool := true.

(** [entity_registry_enabled_default]: overridden by the main sensor only. *)
Definition entity_registry_enabled_default (self : Sensor) : bool :=
  match class self with
  | SyncThruMainSensor => false
  | _ => Entity_entity_registry_enabled_default
  end.

(** ** Set-up *)

(** A [for key in d: entities.append(mk key)] loop. *)
Definition append_each {K} (mk : K → Sensor) (keys : list K)
    (entities : list Sensor) : list Sensor :=
  fold_left (λ entities key, (entities ++ [mk key])%list) keys entities.

(** [async_setup_entry]: [printer] is [coordinator.data], [name] is
    [config_entry.data[CONF_NAME]]; the result is the list handed to
    [async_add_entities]. *)
Definition async_setup_entry (printer : SyncThru) (name : string) : list Sensor :=
  let supp_toner := toner_status printer (Some true) in
  let supp_drum := drum_status printer (Some true) in
  let supp_tray := input_tray_status printer (Some true) in
  let supp_output_tray := output_tray_status printer in
  let entities := [SyncThruMainSensor__init__ name] in
  let entities :=
    append_each (SyncThruTonerSensor__init__ name) (dict_keys supp_toner) entities in
  let entities :=
    append_each (SyncThruDrumSensor__init__ name) (dict_keys supp_drum) entities in
  let entities :=
    append_each (SyncThruInputTraySensor__init__ name) (dict_keys supp_tray) entities in
  let entities :=
    append_each (SyncThruOutputTraySensor__init__ name) (dict_keys supp_output_tray) entities in
  entities.

(** ** A sample printer *)

(** A colour laser with one supported toner, no drum unit, one input tray
    without error and one output tray reporting a jam. *)
Definition sample_printer : SyncThru :=
  {| device_status := VState NORMAL;
     device_status_details := "Sleeping...";
     serial_number := Some "SN1";
     toner_status := λ _, [(VStr "black", {[ "remaining" := VInt 42 ]})];
     drum_status := λ _, [];
     input_tray_status := λ _, [(VInt 1, {[ "newError" := VStr "" ]})];
     output_tray_status := [(VInt 0, {[ "status" := VStr "jam" ]})] |}.

(** A mono printer on which only the output tray is reported, with an
    entry that carries no field at all; the device answers with a state the
    table does not list and an empty serial number. *)
Definition bare_printer : SyncThru :=
  {| device_status := VInt 7;
     device_status_details := "";
     serial_number := Some "";
     toner_status := λ _, [];
     drum_status := λ _, [];
     input_tray_status := λ _, [];
     output_tray_status := [(VInt 0, ∅); (VInt 1, {[ "status" := VStr "" ]})] |}.

(** The sample printer some polls later: same keys, other readings. *)
Definition sample_printer_later : SyncThru :=
  {| device_status := VState WARNING;
     device_status_details := "Toner low";
     serial_number := None;
     toner_status := λ _, [(VStr "black", {[ "remaining" := VInt 3 ]})];
     drum_status := λ _, [];
     input_tray_status := λ _, [(VInt 1, {[ "newError" := VStr "empty" ]})];
     output_tray_status := [(VInt 0, {[ "status" := VStr "" ]})] |}.

(** The printer with another serial number. *)
Definition with_serial (serial : option string) (p : SyncThru) : SyncThru :=
  {| device_status := device_status p;
     device_status_details := device_status_details p;
     serial_number := serial;
     toner_status := toner_status p;
     drum_status := drum_status p;
     input_tray_status := input_tray_status p;
     output_tray_status := output_tray_status p |}.

(** ** The label table, as the specification words it *)

Definition state_label (st : SyncthruState) : string :=
  match st with
  | INVALID => "invalid"
  | OFFLINE => "unreachable"
  | NORMAL => "normal"
  | UNKNOWN => "unknown"
  | WARNING => "warning"
  | TESTING => "testing"
  | ERROR => "error"
  end.

(** The sequence of classes of a catalogue with [t] toner, [d] drum, [i]
    input tray and [o] output tray sensors. *)
Definition class_layout (t d i o : nat) : list SensorClass :=
  (SyncThruMainSensor :: replicate t SyncThruTonerSensor
   ++ replicate d SyncThruDrumSensor
   ++ replicate i SyncThruInputTraySensor
   ++ replicate o SyncThruOutputTraySensor)%list.

(** ** Default keys and monitored conditions *)

(** [range(start, stop)] *)
Definition range (start stop : Z) : list Z := seqZ start (stop - start).

Definition COLORS : list string := ["black"; "cyan"; "magenta"; "yellow"].
Definition DRUM_COLORS : list string := COLORS.
Definition TONER_COLORS : list string := COLORS.
Definition TRAYS : list Z := range 1 6.
Definition OUTPUT_TRAYS : list Z := range 0 6.

(** [conditions.extend([... for key in keys])] *)
Definition extend {K} (conditions : list string) (mk : K → string)
    (keys : list K) : list string :=
  (conditions ++ (mk <$> keys))%list.

Definition DEFAULT_MONITORED_CONDITIONS : list string :=
  let conditions := [] in
  let conditions :=
    extend conditions (λ key, "toner_" +:+ format (VStr key)) TONER_COLORS in
  let conditions :=
    extend conditions (λ key, "drum_" +:+ format (VStr key)) DRUM_COLORS in
  let conditions :=
    extend conditions (λ key, "tray_" +:+ format (VInt key)) TRAYS in
  let conditions :=
    extend conditions (λ key, "output_tray_" +:+ format (VInt key)) OUTPUT_TRAYS in
  conditions.

(** A printer that reports every default key, each with an empty entry. *)
Definition full_printer : SyncThru :=
  {| device_status := VState NORMAL;
     device_status_details := "";
     serial_number := Some "SN2";
     toner_status := λ _, (λ c, (VStr c, ∅)) <$> TONER_COLORS;
     drum_status := λ _, (λ c, (VStr c, ∅)) <$> DRUM_COLORS;
     input_tray_status := λ _, (λ n, (VInt n, ∅)) <$> TRAYS;
     output_tray_status := (λ n, (VInt n, ∅)) <$> OUTPUT_TRAYS |}.

(** * Properties *)

(** ** Auxiliary facts *)

Lemma append_each_app {K} (mk : K → Sensor) keys entities :
  append_each mk keys entities = (entities ++ (mk <$> keys))%list.
Proof.
  unfold append_each. revert entities.
  induction keys as [|k keys IH]; intros entities; simpl.
  - by rewrite app_nil_r.
  - rewrite IH. by rewrite <- app_assoc.
Qed.

Lemma class_fmap_const {K} (mk : K → Sensor) (c : SensorClass) keys :
  (∀ k, class (mk k) = c) →
  class <$> (mk <$> keys) = replicate (length keys) c.
Proof.
  intros Hc. induction keys as [|k keys IH]; [done|].
  rewrite !fmap_cons. cbn [length replicate]. by rewrite Hc, IH.
Qed.

Lemma string_length_app (s1 s2 : string) :
  String.length (s1 +:+ s2) = (String.length s1 + String.length s2)%nat.
Proof. induction s1 as [|a s1 IH]; simpl; [done|]. by rewrite IH. Qed.

Lemma string_app_id_inv (s1 s2 : string) : s1 +:+ s2 = s2 → s1 = "".
Proof.
  intros Heq. apply (f_equal String.length) in Heq.
  rewrite string_length_app in Heq.
  destruct s1; [done|]. simpl in Heq. lia.
Qed.

Lemma truthy_Some (s : string) : s ≠ "" → truthy (Some s) = true.
Proof. intros Hs. unfold truthy. by apply bool_decide_eq_true. Qed.

Lemma truthy_inv (serial : option string) :
  truthy serial = true → ∃ s, serial = Some s ∧ s ≠ "".
Proof.
  destruct serial as [s|]; simpl; [|done].
  intros Hs%bool_decide_eq_true. eauto.
Qed.

Lemma state_human_lookup (st : SyncthruState) :
  dict_lookup SYNCTHRU_STATE_HUMAN (VState st) = Some (state_label st).
Proof. by destruct st. Qed.

Lemma state_human_lookup_other (v : value) :
  (∀ st, v ≠ VState st) → dict_lookup SYNCTHRU_STATE_HUMAN v = None.
Proof.
  intros Hv. unfold SYNCTHRU_STATE_HUMAN. simpl.
  repeat case_decide; try done; exfalso; eapply Hv; eauto.
Qed.

Lemma dict_get_Some {V} (d : list (value * V)) k dflt v :
  dict_lookup d k = Some v → dict_get d k dflt = v.
Proof. unfold dict_get. by intros ->. Qed.

Lemma dict_get_None {V} (d : list (value * V)) k dflt :
  dict_lookup d k = None → dict_get d k dflt = dflt.
Proof. unfold dict_get. by intros ->. Qed.

Lemma dict_lookup_None_keys {V} (d : list (value * V)) k :
  k ∉ dict_keys d → dict_lookup d k = None.
Proof.
  unfold dict_keys. induction d as [|[k' v] d IH]; simpl; [done|].
  intros [Hne Hnin]%not_elem_of_cons.
  case_decide; [congruence|]. by apply IH.
Qed.

(** ** The catalogue of sensors *)

(** The sample printer gets a main sensor, a toner sensor for black, a
    sensor for input tray 1 and a sensor for output tray 0. *)
Example sample_printer_catalog :
  async_setup_entry sample_printer "Printer" =
    [ SyncThruMainSensor__init__ "Printer";
      SyncThruTonerSensor__init__ "Printer" (VStr "black");
      SyncThruInputTraySensor__init__ "Printer" (VInt 1);
      SyncThruOutputTraySensor__init__ "Printer" (VInt 0) ].
Proof. reflexivity. Qed.

(** C1: the set-up routine yields the main sensor first, then one toner
    sensor per key of [toner_status(filter_supported=True)], one drum sensor
    per key of [drum_status(filter_supported=True)], one input tray sensor
    per key of [input_tray_status(filter_supported=True)] and one output
    tray sensor per key of [output_tray_status()], which takes no filter;
    the main sensor occurs once; with the three filtered dictionaries empty
    the main sensor and the output tray sensors are all there is. *)
Theorem async_setup_entry_catalog (printer : SyncThru) (base : string) :
  let toner := dict_keys (toner_status printer (Some true)) in
  let drum := dict_keys (drum_status printer (Some true)) in
  let tray := dict_keys (input_tray_status printer (Some true)) in
  let output_tray := dict_keys (output_tray_status printer) in
  async_setup_entry printer base =
    (SyncThruMainSensor__init__ base
     :: (SyncThruTonerSensor__init__ base <$> toner)
     ++ (SyncThruDrumSensor__init__ base <$> drum)
     ++ (SyncThruInputTraySensor__init__ base <$> tray)
     ++ (SyncThruOutputTraySensor__init__ base <$> output_tray))%list
  ∧ class <$> async_setup_entry printer base =
      class_layout (length toner) (length drum) (length tray) (length output_tray)
  ∧ (toner = [] → drum = [] → tray = [] →
     async_setup_entry printer base =
       SyncThruMainSensor__init__ base
       :: (SyncThruOutputTraySensor__init__ base <$> output_tray)).
Proof.
  intros toner drum tray output_tray.
  assert (async_setup_entry printer base =
    (SyncThruMainSensor__init__ base
     :: (SyncThruTonerSensor__init__ base <$> toner)
     ++ (SyncThruDrumSensor__init__ base <$> drum)
     ++ (SyncThruInputTraySensor__init__ base <$> tray)
     ++ (SyncThruOutputTraySensor__init__ base <$> output_tray))%list) as Hshape.
  { unfold async_setup_entry. rewrite !append_each_app.
    simpl. by rewrite <- !app_assoc. }
  split; [done|]. split.
  - rewrite Hshape. unfold class_layout. rewrite fmap_cons, !fmap_app.
    rewrite (class_fmap_const _ SyncThruTonerSensor) by done.
    rewrite (class_fmap_const _ SyncThruDrumSensor) by done.
    rewrite (class_fmap_const _ SyncThruInputTraySensor) by done.
    by rewrite (class_fmap_const _ SyncThruOutputTraySensor) by done.
  - intros Ht Hd Hi. rewrite Hshape, Ht, Hd, Hi. done.
Qed.

Lemma async_setup_entry_catalog_witness :
  async_setup_entry bare_printer "Printer" =
    [ SyncThruMainSensor__init__ "Printer";
      SyncThruOutputTraySensor__init__ "Printer" (VInt 0);
      SyncThruOutputTraySensor__init__ "Printer" (VInt 1) ].
Proof.
  apply (proj2 (proj2 (async_setup_entry_catalog bare_printer "Printer")));
    reflexivity.
Defined.

(** C8: the catalogue is a function of the base name and of the keys the
    four status dictionaries hold at set-up: two builds from printers that
    agree on them, and so two builds from the same printer, give lists of
    sensors equal field by field and in the same order. *)
Theorem async_setup_entry_deterministic (p1 p2 : SyncThru) (base1 base2 : string) :
  base1 = base2 →
  dict_keys (toner_status p1 (Some true)) = dict_keys (toner_status p2 (Some true)) →
  dict_keys (drum_status p1 (Some true)) = dict_keys (drum_status p2 (Some true)) →
  dict_keys (input_tray_status p1 (Some true))
    = dict_keys (input_tray_status p2 (Some true)) →
  dict_keys (output_tray_status p1) = dict_keys (output_tray_status p2) →
  async_setup_entry p1 base1 = async_setup_entry p2 base2.
Proof.
  intros -> Ht Hd Hi Ho. unfold async_setup_entry.
  by rewrite Ht, Hd, Hi, Ho.
Qed.

Lemma async_setup_entry_deterministic_witness :
  async_setup_entry sample_printer "Printer"
  = async_setup_entry sample_printer_later "Printer".
Proof.
  apply (async_setup_entry_deterministic sample_printer sample_printer_later);
    reflexivity.
Defined.

(** ** Names and identifiers *)

(** C9: the main sensor is named by the base name alone; the other classes
    append " Toner ", " Drum ", " Tray " or " Output Tray " and the text of
    the colour or of the tray number. *)
Theorem display_names (base : string) (key : value) :
  name (SyncThruMainSensor__init__ base) = base
  ∧ name (SyncThruTonerSensor__init__ base key) = base +:+ " Toner " +:+ format key
  ∧ name (SyncThruDrumSensor__init__ base key) = base +:+ " Drum " +:+ format key
  ∧ name (SyncThruInputTraySensor__init__ base key) = base +:+ " Tray " +:+ format key
  ∧ name (SyncThruOutputTraySensor__init__ base key)
      = base +:+ " Output Tray " +:+ format key
  ∧ (∀ color : string, format (VStr color) = color)
  ∧ (∀ number : Z, format (VInt number) = pretty number)
  ∧ name (SyncThruTonerSensor__init__ "Printer" (VStr "black")) = "Printer Toner black"
  ∧ name (SyncThruInputTraySensor__init__ "Printer" (VInt 1)) = "Printer Tray 1"
  ∧ name (SyncThruOutputTraySensor__init__ "Printer" (VInt 0))
      = "Printer Output Tray 0".
Proof. repeat split. Qed.




(** C10: a serial number that is the empty string gives no identifier, as
    every serial number that counts as false does; the identifier is never
    the suffix alone. *)
Theorem unique_id_falsy_serial (self : Sensor) (p : SyncThru) :
  (serial_number p = Some "" → unique_id self p = None)
  ∧ (truthy (serial_number p) = false → unique_id self p = None)
  ∧ unique_id self p ≠ Some ("" +:+ _id_suffix self).
Proof.
  split; [|split].
  - intros Hs. unfold unique_id. by rewrite Hs.
  - intros Ht. unfold unique_id. by rewrite Ht.
  - unfold unique_id.
    destruct (truthy (serial_number p)) eqn:Ht; [|done].
    apply truthy_inv in Ht as (serial & Hs & Hne).
    rewrite Hs. simpl. intros [= Heq].
    by apply string_app_id_inv in Heq.
Qed.

Lemma unique_id_falsy_serial_witness :
  unique_id (SyncThruMainSensor__init__ "Printer") bare_printer = None.
Proof.
  apply (proj1 (unique_id_falsy_serial
                  (SyncThruMainSensor__init__ "Printer") bare_printer));
    reflexivity.
Defined.

(** ** The state of the device *)

(** C2: the table has the seven states as its keys and nothing else, maps
    them to "invalid", "unreachable", "normal", "unknown", "warning",
    "testing" and "error", and the main sensor shows that label for each of
    the seven states. *)
Theorem state_label_table :
  dict_keys SYNCTHRU_STATE_HUMAN
    = VState <$> [INVALID; OFFLINE; NORMAL; UNKNOWN; WARNING; TESTING; ERROR]
  ∧ (∀ v, is_Some (dict_lookup SYNCTHRU_STATE_HUMAN v) ↔ ∃ st, v = VState st)
  ∧ dict_getitem SYNCTHRU_STATE_HUMAN (VState INVALID) = Ok "invalid"
  ∧ dict_getitem SYNCTHRU_STATE_HUMAN (VState OFFLINE) = Ok "unreachable"
  ∧ dict_getitem SYNCTHRU_STATE_HUMAN (VState NORMAL) = Ok "normal"
  ∧ dict_getitem SYNCTHRU_STATE_HUMAN (VState UNKNOWN) = Ok "unknown"
  ∧ dict_getitem SYNCTHRU_STATE_HUMAN (VState WARNING) = Ok "warning"
  ∧ dict_getitem SYNCTHRU_STATE_HUMAN (VState TESTING) = Ok "testing"
  ∧ dict_getitem SYNCTHRU_STATE_HUMAN (VState ERROR) = Ok "error"
  ∧ (∀ base p st, device_status p = VState st →
       native_value (SyncThruMainSensor__init__ base) p = Ok (VStr (state_label st))).
Proof.
  split; [done|]. split.
  { intros v. split.
    - intros Hsome. destruct v as [| | |st]; [..|by eauto];
        by apply is_Some_None in Hsome.
    - intros [st ->]. rewrite state_human_lookup. eauto. }
  repeat (split; [done|]).
  intros base p st Hst. unfold native_value. simpl.
  unfold dict_getitem. by rewrite Hst, state_human_lookup.
Qed.

Lemma state_label_table_witness :
  native_value (SyncThruMainSensor__init__ "Printer") sample_printer
  = Ok (VStr "normal").
Proof.
  apply (proj2 (proj2 (proj2 (proj2 (proj2 (proj2 (proj2 (proj2 (proj2
           state_label_table)))))))) "Printer" sample_printer NORMAL).
  reflexivity.
Defined.

(** C7: reading the value of the main sensor while the device status is
    none of the seven states raises [KeyError]; this happens for no other
    status, so a printer that only ever reports one of the seven never takes
    that path. *)
Theorem main_value_unknown_code (base : string) (p : SyncThru) :
  ((∀ st, device_status p ≠ VState st) →
     native_value (SyncThruMainSensor__init__ base) p
     = Raise (KeyError (device_status p)))
  ∧ (∀ st, device_status p = VState st →
       ∀ e, native_value (SyncThruMainSensor__init__ base) p ≠ Raise e).
Proof.
  split.
  - intros Hother. unfold native_value. simpl. unfold dict_getitem.
    by rewrite (state_human_lookup_other _ Hother).
  - intros st Hst e. unfold native_value. simpl. unfold dict_getitem.
    by rewrite Hst, state_human_lookup.
Qed.

Lemma main_value_unknown_code_witness :
  native_value (SyncThruMainSensor__init__ "Printer") bare_printer
  = Raise (KeyError (VInt 7)).
Proof.
  apply (proj1 (main_value_unknown_code "Printer" bare_printer)).
  intros st. simpl. discriminate.
Defined.

(** C6: the main sensor shows the label of the device status, has the
    status details under "display_text" as its only attribute and is
    disabled by default; a sensor of any other class is enabled by
    default. *)
Theorem main_sensor_contract (base : string) (p : SyncThru) :
  (∀ st, device_status p = VState st →
     native_value (SyncThruMainSensor__init__ base) p = Ok (VStr (state_label st)))
  ∧ extra_state_attributes (SyncThruMainSensor__init__ base) p
      = Ok {[ "display_text" := VStr (device_status_details p) ]}
  ∧ entity_registry_enabled_default (SyncThruMainSensor__init__ base) = false
  ∧ (∀ self, class self ≠ SyncThruMainSensor →
       entity_registry_enabled_default self = true)
  ∧ (∀ key,
       entity_registry_enabled_default (SyncThruTonerSensor__init__ base key) = true
       ∧ entity_registry_enabled_default (SyncThruDrumSensor__init__ base key) = true
       ∧ entity_registry_enabled_default (SyncThruInputTraySensor__init__ base key)
           = true
       ∧ entity_registry_enabled_default (SyncThruOutputTraySensor__init__ base key)
           = true).
Proof.
  split; [|split; [done|split; [done|split; [|done]]]].
  - intros st Hst. unfold native_value. simpl. unfold dict_getitem.
    by rewrite Hst, state_human_lookup.
  - intros self Hc. unfold entity_registry_enabled_default.
    by destruct (class self).
Qed.

Lemma main_sensor_contract_witness :
  native_value (SyncThruMainSensor__init__ "Printer") sample_printer_later
  = Ok (VStr "warning").
Proof.
  apply (proj1 (main_sensor_contract "Printer" sample_printer_later) WARNING).
  reflexivity.
Defined.

(** ** Toner, drum and trays *)

(** C3: an input tray whose entry has the empty string under "newError"
    shows "Ready", and shows any other value found there as it is; an output
    tray does the same with the field "status" of its entry. *)
Theorem tray_ready_substitution (base : string) (number : value) (p : SyncThru)
    (e : entry) (v : value) :
  (dict_lookup (input_tray_status p None) number = Some e →
   e !! "newError" = Some v →
     (v = VStr "" →
        native_value (SyncThruInputTraySensor__init__ base number) p
        = Ok (VStr "Ready"))
     ∧ (v ≠ VStr "" →
        native_value (SyncThruInputTraySensor__init__ base number) p = Ok v))
  ∧ (dict_lookup (output_tray_status p) number = Some e →
     e !! "status" = Some v →
       (v = VStr "" →
          native_value (SyncThruOutputTraySensor__init__ base number) p
          = Ok (VStr "Ready"))
       ∧ (v ≠ VStr "" →
          native_value (SyncThruOutputTraySensor__init__ base number) p = Ok v)).
Proof.
  split; intros He Hv; unfold native_value; simpl;
    rewrite (dict_get_Some _ _ _ _ He); unfold entry_get; rewrite Hv; simpl;
    unfold ready_if_empty; split; intros Hcase; by case_decide.
Qed.

Lemma tray_ready_substitution_witness :
  native_value (SyncThruInputTraySensor__init__ "Printer" (VInt 1)) sample_printer
    = Ok (VStr "Ready")
  ∧ native_value (SyncThruOutputTraySensor__init__ "Printer" (VInt 0)) sample_printer
    = Ok (VStr "jam").
Proof.
  split.
  - apply (proj1 (tray_ready_substitution "Printer" (VInt 1) sample_printer
                    {[ "newError" := VStr "" ]} (VStr "")));
      reflexivity.
  - apply (proj2 (tray_ready_substitution "Printer" (VInt 0) sample_printer
                    {[ "status" := VStr "jam" ]} (VStr "jam")));
      [reflexivity|reflexivity|discriminate].
Defined.

(** C5: a toner sensor whose colour is not a key of the toner dictionary
    read at that time has the value [None] and the empty dictionary as
    attributes, both returned without raising; with the colour present the
    value is the field "remaining" of the entry and the attributes are the
    entry.  A drum sensor does the same on the drum dictionary. *)
Theorem toner_drum_readings (base : string) (color : value) (p : SyncThru) :
  (color ∉ dict_keys (toner_status p None) →
     native_value (SyncThruTonerSensor__init__ base color) p = Ok VNone
     ∧ extra_state_attributes (SyncThruTonerSensor__init__ base color) p = Ok ∅)
  ∧ (∀ e, dict_lookup (toner_status p None) color = Some e →
       native_value (SyncThruTonerSensor__init__ base color) p
         = Ok (entry_get e "remaining")
       ∧ (∀ v, e !! "remaining" = Some v →
            native_value (SyncThruTonerSensor__init__ base color) p = Ok v)
       ∧ extra_state_attributes (SyncThruTonerSensor__init__ base color) p = Ok e)
  ∧ (color ∉ dict_keys (drum_status p None) →
       native_value (SyncThruDrumSensor__init__ base color) p = Ok VNone
       ∧ extra_state_attributes (SyncThruDrumSensor__init__ base color) p = Ok ∅)
  ∧ (∀ e, dict_lookup (drum_status p None) color = Some e →
       native_value (SyncThruDrumSensor__init__ base color) p
         = Ok (entry_get e "remaining")
       ∧ (∀ v, e !! "remaining" = Some v →
            native_value (SyncThruDrumSensor__init__ base color) p = Ok v)
       ∧ extra_state_attributes (SyncThruDrumSensor__init__ base color) p = Ok e).
Proof.
  split; [|split; [|split]].
  - intros Hk%dict_lookup_None_keys.
    unfold native_value, extra_state_attributes. simpl.
    by rewrite (dict_get_None _ _ _ Hk).
  - intros e He. unfold native_value, extra_state_attributes. simpl.
    rewrite (dict_get_Some _ _ _ _ He). split; [done|split; [|done]].
    intros v Hv. unfold entry_get. by rewrite Hv.
  - intros Hk%dict_lookup_None_keys.
    unfold native_value, extra_state_attributes. simpl.
    by rewrite (dict_get_None _ _ _ Hk).
  - intros e He. unfold native_value, extra_state_attributes. simpl.
    rewrite (dict_get_Some _ _ _ _ He). split; [done|split; [|done]].
    intros v Hv. unfold entry_get. by rewrite Hv.
Qed.

Lemma toner_drum_readings_witness :
  (native_value (SyncThruTonerSensor__init__ "Printer" (VStr "cyan")) sample_printer
     = Ok VNone
   ∧ extra_state_attributes (SyncThruTonerSensor__init__ "Printer" (VStr "cyan"))
       sample_printer = Ok ∅)
  ∧ native_value (SyncThruTonerSensor__init__ "Printer" (VStr "black")) sample_printer
    = Ok (VInt 42).
Proof.
  split.
  - apply (proj1 (toner_drum_readings "Printer" (VStr "cyan") sample_printer)).
    simpl. intros Hin. apply list_elem_of_singleton in Hin. discriminate.
  - apply (proj1 (proj2 (proj1 (proj2 (toner_drum_readings "Printer"
                                         (VStr "black") sample_printer))
                                 {[ "remaining" := VInt 42 ]} eq_refl))
             (VInt 42)).
    reflexivity.
Defined.

(** * Further properties of the sensors *)

(** ** Auxiliary facts on strings and on the catalogue *)

Lemma string_app_empty_r (s : string) : s +:+ "" = s.
Proof.
  induction s as [|a s IH]; [done|].
  change (String a (s +:+ "") = String a s). by rewrite IH.
Qed.

Lemma string_app_cancel_r (s1 s2 t : string) : s1 +:+ t = s2 +:+ t → s1 = s2.
Proof.
  revert s2. induction s1 as [|a s1 IH]; intros [|b s2] Heq.
  - done.
  - symmetry in Heq. by apply string_app_id_inv in Heq.
  - by apply string_app_id_inv in Heq.
  - simpl in Heq. injection Heq as -> Heq. f_equal. by apply IH.
Qed.

Lemma unique_id_truthy (self : Sensor) (p : SyncThru) (serial : string) :
  serial_number p = Some serial → serial ≠ "" →
  unique_id self p = Some (serial +:+ _id_suffix self).
Proof.
  intros Hs Hne. unfold unique_id. by rewrite Hs, (truthy_Some _ Hne).
Qed.

Lemma async_setup_entry_unfold (printer : SyncThru) (base : string) :
  async_setup_entry printer base =
    (SyncThruMainSensor__init__ base
     :: (SyncThruTonerSensor__init__ base
           <$> dict_keys (toner_status printer (Some true)))
     ++ (SyncThruDrumSensor__init__ base
           <$> dict_keys (drum_status printer (Some true)))
     ++ (SyncThruInputTraySensor__init__ base
           <$> dict_keys (input_tray_status printer (Some true)))
     ++ (SyncThruOutputTraySensor__init__ base
           <$> dict_keys (output_tray_status printer)))%list.
Proof.
  unfold async_setup_entry. rewrite !append_each_app.
  simpl. by rewrite <- !app_assoc.
Qed.

(** A sensor of the catalogue comes out of one of the five constructors,
    applied to the base name and, but for the main sensor, to a key of the
    matching dictionary. *)
Lemma elem_of_async_setup_entry (printer : SyncThru) (base : string) (s : Sensor) :
  s ∈ async_setup_entry printer base ↔
    s = SyncThruMainSensor__init__ base
    ∨ (∃ k, s = SyncThruTonerSensor__init__ base k
            ∧ k ∈ dict_keys (toner_status printer (Some true)))
    ∨ (∃ k, s = SyncThruDrumSensor__init__ base k
            ∧ k ∈ dict_keys (drum_status printer (Some true)))
    ∨ (∃ k, s = SyncThruInputTraySensor__init__ base k
            ∧ k ∈ dict_keys (input_tray_status printer (Some true)))
    ∨ (∃ k, s = SyncThruOutputTraySensor__init__ base k
            ∧ k ∈ dict_keys (output_tray_status printer)).
Proof.
  rewrite async_setup_entry_unfold.
  by rewrite elem_of_cons, !elem_of_app, !list_elem_of_fmap.
Qed.

Lemma id_suffix_catalog (printer : SyncThru) (base : string) :
  _id_suffix <$> async_setup_entry printer base =
    ("_main"
     :: (String.app "_toner_"
           <$> (format <$> dict_keys (toner_status printer (Some true))))
     ++ (String.app "_drum_"
           <$> (format <$> dict_keys (drum_status printer (Some true))))
     ++ (String.app "_tray_"
           <$> (format <$> dict_keys (input_tray_status printer (Some true))))
     ++ (String.app "_output_tray_"
           <$> (format <$> dict_keys (output_tray_status printer))))%list.
Proof.
  rewrite async_setup_entry_unfold, fmap_cons, !fmap_app.
  by rewrite <- !list_fmap_compose.
Qed.

Lemma name_catalog (printer : SyncThru) (base : string) :
  name <$> async_setup_entry printer base =
    String.app base <$>
    ("" :: (String.app " Toner "
              <$> (format <$> dict_keys (toner_status printer (Some true))))
        ++ (String.app " Drum "
              <$> (format <$> dict_keys (drum_status printer (Some true))))
        ++ (String.app " Tray "
              <$> (format <$> dict_keys (input_tray_status printer (Some true))))
        ++ (String.app " Output Tray "
              <$> (format <$> dict_keys (output_tray_status printer))))%list.
Proof.
  rewrite async_setup_entry_unfold, !fmap_cons, !fmap_app.
  rewrite <- !list_fmap_compose.
  apply (f_equal2 cons); [|reflexivity].
  symmetry. apply string_app_empty_r.
Qed.

(** Closes a goal from an equation [Hx] that one of the hypotheses rules
    out. *)
Ltac clash Hx :=
  exfalso;
  match goal with
  | H : _ |- _ => exact (H _ Hx)
  | H : _ |- _ => exact (H _ _ Hx)
  end.

(** A list made of one string and four families of strings, each family
    marked by a prefix of its own, repeats nothing when no family does and
    no two marks can start the same string. *)
Lemma tagged_NoDup (m t d i o : string) (ft fd fi fo : list string) :
  (∀ a, m ≠ t +:+ a) → (∀ a, m ≠ d +:+ a) →
  (∀ a, m ≠ i +:+ a) → (∀ a, m ≠ o +:+ a) →
  (∀ a b, t +:+ a ≠ d +:+ b) → (∀ a b, t +:+ a ≠ i +:+ b) →
  (∀ a b, t +:+ a ≠ o +:+ b) → (∀ a b, d +:+ a ≠ i +:+ b) →
  (∀ a b, d +:+ a ≠ o +:+ b) → (∀ a b, i +:+ a ≠ o +:+ b) →
  NoDup ft → NoDup fd → NoDup fi → NoDup fo →
  NoDup (m :: (String.app t <$> ft) ++ (String.app d <$> fd)
           ++ (String.app i <$> fi) ++ (String.app o <$> fo)).
Proof.
  intros Hmt Hmd Hmi Hmo Htd Hti Hto Hdi Hdo Hio Nt Nd Ni No.
  rewrite NoDup_cons, !NoDup_app, !(NoDup_fmap _).
  split_and!; try done.
  - rewrite !elem_of_app, !list_elem_of_fmap.
    intros Hx. repeat destruct Hx as [Hx|Hx];
      destruct Hx as (b & Hx & _); clash Hx.
  - intros x (a & -> & _)%list_elem_of_fmap.
    rewrite !elem_of_app, !list_elem_of_fmap.
    intros Hx. repeat destruct Hx as [Hx|Hx];
      destruct Hx as (b & Hx & _); clash Hx.
  - intros x (a & -> & _)%list_elem_of_fmap.
    rewrite !elem_of_app, !list_elem_of_fmap.
    intros Hx. repeat destruct Hx as [Hx|Hx];
      destruct Hx as (b & Hx & _); clash Hx.
  - intros x (a & -> & _)%list_elem_of_fmap.
    rewrite !list_elem_of_fmap.
    intros (b & Hx & _). clash Hx.
Qed.

Lemma id_suffix_catalog_NoDup (printer : SyncThru) (base : string) :
  NoDup (format <$> dict_keys (toner_status printer (Some true))) →
  NoDup (format <$> dict_keys (drum_status printer (Some true))) →
  NoDup (format <$> dict_keys (input_tray_status printer (Some true))) →
  NoDup (format <$> dict_keys (output_tray_status printer)) →
  NoDup (_id_suffix <$> async_setup_entry printer base).
Proof.
  intros Nt Nd Ni No. rewrite id_suffix_catalog.
  apply tagged_NoDup; try done; intros; discriminate.
Qed.

(** ** Identifiers and names across the catalogue *)

(** X1: when the keys of each set-up dictionary have pairwise different
    texts and the printer has a non-empty serial number at the time of the
    read, every sensor of the catalogue has an identifier and no two
    sensors share one. *)
Theorem catalog_unique_ids_distinct (setup p : SyncThru) (base serial : string) :
  serial_number p = Some serial → serial ≠ "" →
  NoDup (format <$> dict_keys (toner_status setup (Some true))) →
  NoDup (format <$> dict_keys (drum_status setup (Some true))) →
  NoDup (format <$> dict_keys (input_tray_status setup (Some true))) →
  NoDup (format <$> dict_keys (output_tray_status setup)) →
  Forall (λ s, is_Some (unique_id s p)) (async_setup_entry setup base)
  ∧ NoDup ((λ s, unique_id s p) <$> async_setup_entry setup base).
Proof.
  intros Hs Hne Nt Nd Ni No. split.
  - apply Forall_forall. intros s _.
    rewrite (unique_id_truthy _ _ _ Hs Hne). eauto.
  - rewrite (list_fmap_ext _ (λ s, Some (serial +:+ _id_suffix s)))
      by (intros i s _; apply (unique_id_truthy _ _ _ Hs Hne)).
    change (λ s, Some (serial +:+ _id_suffix s))
      with ((λ suffix, Some (serial +:+ suffix)) ∘ _id_suffix).
    rewrite list_fmap_compose. apply NoDup_fmap_2_strong.
    + intros x y _ _ [= Heq]. by apply (inj (String.app serial)) in Heq.
    + by apply id_suffix_catalog_NoDup.
Qed.

Lemma catalog_unique_ids_distinct_witness :
  NoDup ((λ s, unique_id s sample_printer)
           <$> async_setup_entry sample_printer_later "Printer").
Proof.
  apply (proj2 (catalog_unique_ids_distinct sample_printer_later sample_printer
                  "Printer" "SN1" eq_refl ltac:(discriminate)
                  (NoDup_singleton _) (NoDup_nil_2) (NoDup_singleton _)
                  (NoDup_singleton _))).
Defined.

(** X2: under the same condition on the keys no two sensors of the
    catalogue have the same name, whatever the base name is. *)
Theorem catalog_names_distinct (printer : SyncThru) (base : string) :
  NoDup (format <$> dict_keys (toner_status printer (Some true))) →
  NoDup (format <$> dict_keys (drum_status printer (Some true))) →
  NoDup (format <$> dict_keys (input_tray_status printer (Some true))) →
  NoDup (format <$> dict_keys (output_tray_status printer)) →
  NoDup (name <$> async_setup_entry printer base).
Proof.
  intros Nt Nd Ni No. rewrite name_catalog.
  apply NoDup_fmap_2; [apply _|].
  apply tagged_NoDup; try done; intros; discriminate.
Qed.

Lemma catalog_names_distinct_witness :
  NoDup (name <$> async_setup_entry sample_printer "Printer").
Proof.
  apply (catalog_names_distinct sample_printer "Printer"
           (NoDup_singleton _) (NoDup_nil_2) (NoDup_singleton _)
           (NoDup_singleton _)).
Defined.

(** X3: two printers with different non-empty serial numbers never give
    the same identifier to the same sensor. *)
Theorem unique_id_separates_printers (self : Sensor) (p1 p2 : SyncThru)
    (serial1 serial2 : string) :
  serial_number p1 = Some serial1 → serial1 ≠ "" →
  serial_number p2 = Some serial2 → serial2 ≠ "" →
  serial1 ≠ serial2 →
  unique_id self p1 ≠ unique_id self p2.
Proof.
  intros Hs1 Hne1 Hs2 Hne2 Hdiff.
  rewrite (unique_id_truthy _ _ _ Hs1 Hne1), (unique_id_truthy _ _ _ Hs2 Hne2).
  intros [= Heq]. by apply string_app_cancel_r in Heq.
Qed.

Lemma unique_id_separates_printers_witness :
  unique_id (SyncThruMainSensor__init__ "Printer") sample_printer
  ≠ unique_id (SyncThruMainSensor__init__ "Printer") full_printer.
Proof.
  apply (unique_id_separates_printers (SyncThruMainSensor__init__ "Printer")
           sample_printer full_printer "SN1" "SN2"
           eq_refl ltac:(discriminate) eq_refl ltac:(discriminate)
           ltac:(discriminate)).
Defined.

(** ** Reading the sensors of the catalogue *)

(** X4: whatever the printer has become since set-up, reading the
    attributes of a sensor of the catalogue never raises, reading the value
    of a sensor other than the main one never raises, and the only exception
    the value of the main sensor can raise is the [KeyError] for a device
    status outside the table; no read fails on an attribute that the
    constructor did not set. *)
Theorem catalog_reads_raise_only_key_error (setup p : SyncThru) (base : string)
    (s : Sensor) :
  s ∈ async_setup_entry setup base →
  (∃ attrs, extra_state_attributes s p = Ok attrs)
  ∧ (class s ≠ SyncThruMainSensor → ∃ v, native_value s p = Ok v)
  ∧ (∀ e, native_value s p = Raise e →
       class s = SyncThruMainSensor
       ∧ e = KeyError (device_status p)
       ∧ ∀ st, device_status p ≠ VState st).
Proof.
  rewrite elem_of_async_setup_entry.
  intros [->|[(k & -> & _)|[(k & -> & _)|[(k & -> & _)|(k & -> & _)]]]];
    (split; [by eexists|split]); try done; try (by eexists).
  - cbn. unfold dict_getitem.
    destruct (dict_lookup SYNCTHRU_STATE_HUMAN (device_status p)) as [l|] eqn:Hl;
      [done|].
    intros e [= <-]. split_and!; [done..|].
    intros st Hst. by rewrite Hst, state_human_lookup in Hl.
Qed.

Lemma catalog_reads_raise_only_key_error_witness :
  ∃ attrs,
    extra_state_attributes (SyncThruOutputTraySensor__init__ "Printer" (VInt 1))
      sample_printer = Ok attrs.
Proof.
  apply (proj1 (catalog_reads_raise_only_key_error bare_printer sample_printer
                  "Printer" (SyncThruOutputTraySensor__init__ "Printer" (VInt 1))
                  ltac:(vm_compute; repeat constructor))).
Defined.

(** X5: a tray sensor whose number is not a key of the dictionary read at
    that time shows [None], not "Ready", and has the empty dictionary as
    attributes; with the number present the attributes are the entry, and
    the value is [None] when the entry lacks the field that is read
    ("newError" for input trays, "status" for output trays). *)
Theorem tray_missing_readings (base : string) (number : value) (p : SyncThru) :
  (number ∉ dict_keys (input_tray_status p None) →
     native_value (SyncThruInputTraySensor__init__ base number) p = Ok VNone
     ∧ extra_state_attributes (SyncThruInputTraySensor__init__ base number) p
         = Ok ∅)
  ∧ (∀ e, dict_lookup (input_tray_status p None) number = Some e →
       extra_state_attributes (SyncThruInputTraySensor__init__ base number) p
         = Ok e
       ∧ (e !! "newError" = None →
          native_value (SyncThruInputTraySensor__init__ base number) p
            = Ok VNone))
  ∧ (number ∉ dict_keys (output_tray_status p) →
       native_value (SyncThruOutputTraySensor__init__ base number) p = Ok VNone
       ∧ extra_state_attributes (SyncThruOutputTraySensor__init__ base number) p
           = Ok ∅)
  ∧ (∀ e, dict_lookup (output_tray_status p) number = Some e →
       extra_state_attributes (SyncThruOutputTraySensor__init__ base number) p
         = Ok e
       ∧ (e !! "status" = None →
          native_value (SyncThruOutputTraySensor__init__ base number) p
            = Ok VNone)).
Proof.
  split_and!.
  - intros Hk%dict_lookup_None_keys.
    unfold native_value, extra_state_attributes. simpl.
    by rewrite (dict_get_None _ _ _ Hk).
  - intros e He. unfold native_value, extra_state_attributes. simpl.
    rewrite (dict_get_Some _ _ _ _ He). split; [done|].
    intros Hv. unfold entry_get. by rewrite Hv.
  - intros Hk%dict_lookup_None_keys.
    unfold native_value, extra_state_attributes. simpl.
    by rewrite (dict_get_None _ _ _ Hk).
  - intros e He. unfold native_value, extra_state_attributes. simpl.
    rewrite (dict_get_Some _ _ _ _ He). split; [done|].
    intros Hv. unfold entry_get. by rewrite Hv.
Qed.

Lemma tray_missing_readings_witness :
  native_value (SyncThruInputTraySensor__init__ "Printer" (VInt 1)) bare_printer
    = Ok VNone
  ∧ extra_state_attributes (SyncThruInputTraySensor__init__ "Printer" (VInt 1))
      bare_printer = Ok ∅.
Proof.
  apply (proj1 (tray_missing_readings "Printer" (VInt 1) bare_printer)).
  apply not_elem_of_nil.
Defined.

(** X6: the value of a tray sensor is never the empty string, whatever the
    dictionary holds. *)
Theorem tray_value_never_empty (base : string) (number : value) (p : SyncThru) :
  native_value (SyncThruInputTraySensor__init__ base number) p ≠ Ok (VStr "")
  ∧ native_value (SyncThruOutputTraySensor__init__ base number) p ≠ Ok (VStr "").
Proof.
  split; unfold native_value; simpl; unfold ready_if_empty;
    case_decide; congruence.
Qed.

(** X7: every sensor of the catalogue has the printer icon; the toner and
    drum sensors measure in percent and the other sensors have no unit. *)
Theorem catalog_icon_unit (printer : SyncThru) (base : string) (s : Sensor) :
  s ∈ async_setup_entry printer base →
  icon s = "mdi:printer"
  ∧ native_unit_of_measurement s =
      match class s with
      | SyncThruTonerSensor | SyncThruDrumSensor => Some PERCENTAGE
      | _ => None
      end.
Proof.
  rewrite elem_of_async_setup_entry.
  by intros [->|[(k & -> & _)|[(k & -> & _)|[(k & -> & _)|(k & -> & _)]]]].
Qed.

Lemma catalog_icon_unit_witness :
  icon (SyncThruTonerSensor__init__ "Printer" (VStr "black")) = "mdi:printer"
  ∧ native_unit_of_measurement (SyncThruTonerSensor__init__ "Printer" (VStr "black"))
    = Some PERCENTAGE.
Proof.
  apply (catalog_icon_unit sample_printer "Printer"
           (SyncThruTonerSensor__init__ "Printer" (VStr "black"))
           ltac:(vm_compute; repeat constructor)).
Defined.

(** ** Default keys and monitored conditions *)

(** X8: the default input trays are the numbers 1 to 5 and the default
    output trays the numbers 0 to 5, the upper bound 6 of both ranges being
    left out; every default input tray number is a default output tray
    number. *)
Theorem tray_ranges (n : Z) :
  (n ∈ TRAYS ↔ 1 ≤ n ≤ 5)
  ∧ (n ∈ OUTPUT_TRAYS ↔ 0 ≤ n ≤ 5)
  ∧ (n ∈ TRAYS → n ∈ OUTPUT_TRAYS).
Proof.
  unfold TRAYS, OUTPUT_TRAYS, range. rewrite !elem_of_seqZ.
  split_and!; lia.
Qed.

Lemma elem_of_DEFAULT_MONITORED_CONDITIONS (c : string) :
  c ∈ DEFAULT_MONITORED_CONDITIONS ↔
    (∃ color, c = "toner_" +:+ color ∧ color ∈ TONER_COLORS)
    ∨ (∃ color, c = "drum_" +:+ color ∧ color ∈ DRUM_COLORS)
    ∨ (∃ n, c = "tray_" +:+ pretty n ∧ n ∈ TRAYS)
    ∨ (∃ n, c = "output_tray_" +:+ pretty n ∧ n ∈ OUTPUT_TRAYS).
Proof.
  unfold DEFAULT_MONITORED_CONDITIONS, extend.
  rewrite !elem_of_app, !list_elem_of_fmap, elem_of_nil. simpl. tauto.
Qed.

(** X9: on a printer whose set-up dictionaries only have default colours
    and default tray numbers as keys, the identifier suffix of every sensor
    of the catalogue but the main one is an underscore followed by one of
    the default monitored conditions. *)
Theorem catalog_suffixes_monitored (printer : SyncThru) (base : string)
    (s : Sensor) :
  dict_keys (toner_status printer (Some true)) ⊆ VStr <$> TONER_COLORS →
  dict_keys (drum_status printer (Some true)) ⊆ VStr <$> DRUM_COLORS →
  dict_keys (input_tray_status printer (Some true)) ⊆ VInt <$> TRAYS →
  dict_keys (output_tray_status printer) ⊆ VInt <$> OUTPUT_TRAYS →
  s ∈ async_setup_entry printer base →
  s = SyncThruMainSensor__init__ base
  ∨ ∃ c, c ∈ DEFAULT_MONITORED_CONDITIONS ∧ _id_suffix s = "_" +:+ c.
Proof.
  intros Ht Hd Hi Ho.
  rewrite elem_of_async_setup_entry.
  intros [->|[(k & -> & Hk)|[(k & -> & Hk)|[(k & -> & Hk)|(k & -> & Hk)]]]];
    [by left|right..].
  - apply Ht, list_elem_of_fmap in Hk as (c & -> & Hc).
    exists ("toner_" +:+ c). split; [|done].
    apply elem_of_DEFAULT_MONITORED_CONDITIONS. eauto.
  - apply Hd, list_elem_of_fmap in Hk as (c & -> & Hc).
    exists ("drum_" +:+ c). split; [|done].
    apply elem_of_DEFAULT_MONITORED_CONDITIONS. eauto.
  - apply Hi, list_elem_of_fmap in Hk as (n & -> & Hn).
    exists ("tray_" +:+ pretty n). split; [|done].
    apply elem_of_DEFAULT_MONITORED_CONDITIONS. eauto 6.
  - apply Ho, list_elem_of_fmap in Hk as (n & -> & Hn).
    exists ("output_tray_" +:+ pretty n). split; [|done].
    apply elem_of_DEFAULT_MONITORED_CONDITIONS. eauto 6.
Qed.

(** X10: on a printer that reports exactly the default colours and tray
    numbers, in their order, the identifier suffixes of the catalogue are
    "_main" and then, one for one and in the same order, the default
    monitored conditions behind an underscore. *)
Theorem full_catalog_suffixes (printer : SyncThru) (base : string) :
  dict_keys (toner_status printer (Some true)) = VStr <$> TONER_COLORS →
  dict_keys (drum_status printer (Some true)) = VStr <$> DRUM_COLORS →
  dict_keys (input_tray_status printer (Some true)) = VInt <$> TRAYS →
  dict_keys (output_tray_status printer) = VInt <$> OUTPUT_TRAYS →
  _id_suffix <$> async_setup_entry printer base
  = "_main" :: (String.app "_" <$> DEFAULT_MONITORED_CONDITIONS).
Proof.
  intros Ht Hd Hi Ho. rewrite id_suffix_catalog, Ht, Hd, Hi, Ho.
  reflexivity.
Qed.

Lemma full_catalog_suffixes_witness :
  _id_suffix <$> async_setup_entry full_printer "Printer"
  = "_main" :: (String.app "_" <$> DEFAULT_MONITORED_CONDITIONS).
Proof.
  apply (full_catalog_suffixes full_printer "Printer"); reflexivity.
Defined.

Lemma catalog_suffixes_monitored_witness :
  SyncThruOutputTraySensor__init__ "Printer" (VInt 0)
    = SyncThruMainSensor__init__ "Printer"
  ∨ ∃ c, c ∈ DEFAULT_MONITORED_CONDITIONS
         ∧ _id_suffix (SyncThruOutputTraySensor__init__ "Printer" (VInt 0))
           = "_" +:+ c.
Proof.
  apply (catalog_suffixes_monitored sample_printer "Printer"
           (SyncThruOutputTraySensor__init__ "Printer" (VInt 0))).
  - intros k Hk. apply list_elem_of_singleton in Hk as ->.
    vm_compute. repeat constructor.
  - intros k Hk. by apply elem_of_nil in Hk.
  - intros k Hk. apply list_elem_of_singleton in Hk as ->.
    vm_compute. repeat constructor.
  - intros k Hk. apply list_elem_of_singleton in Hk as ->.
    vm_compute. repeat constructor.
  - vm_compute. repeat constructor.
Defined.

Lemma tray_ranges_witness : 3 ∈ OUTPUT_TRAYS.
Proof.
  apply (proj2 (proj2 (tray_ranges 3))).
  vm_compute. repeat constructor.
Defined.
